(** * ResaleFlats: a shallow embedding of [resale_flats.py]

    The class [ResaleFlats] keeps two table handles, [original_data] (the
    fetched and enriched snapshot) and [df] (the working view), and narrows
    [df] with boolean-mask selections.  A pandas [DataFrame] is embedded as
    the list of its rows in positional order, a method as a function from
    the object's state to its result and the next state.  No method updates
    a frame in place (a mask selection builds a new frame and [df] is bound
    to it), so the two handles are embedded by the frames they denote. *)

From Stdlib Require Import List String ZArith Bool Lia Permutation.
From Stdlib Require Import Floats.PrimFloat.
Import ListNotations.

Local Open Scope string_scope.
Local Open Scope list_scope.
Local Open Scope Z_scope.

(** ** Python's [datetime] (naive: no [tzinfo]) *)

Module datetime.

Definition MINYEAR : Z := 1.
Definition MAXYEAR : Z := 9999.

Record t := mk {
  year : Z; month : Z; day : Z;
  hour : Z; minute : Z; second : Z; microsecond : Z
}.

(** [datetime(year, month, day)]: the time of day defaults to midnight. *)
Definition ymd (y m d : Z) : t := mk y m d 0 0 0 0.

Definition is_leap (y : Z) : bool :=
  (y mod 4 =? 0) && (negb (y mod 100 =? 0) || (y mod 400 =? 0)).

Definition days_before_year (y : Z) : Z :=
  let y' := y - 1 in y' * 365 + y' / 4 - y' / 100 + y' / 400.

Definition DAYS_BEFORE_MONTH : list Z :=
  [-1; 0; 31; 59; 90; 120; 151; 181; 212; 243; 273; 304; 334].

Definition days_before_month (y m : Z) : Z :=
  nth (Z.to_nat m) DAYS_BEFORE_MONTH 0
  + (if (2 <? m) && is_leap y then 1 else 0).

(** Proleptic Gregorian ordinal, 0001-01-01 being day 1. *)
Definition ymd2ord (y m d : Z) : Z :=
  days_before_year y + days_before_month y m + d.

(** Position on the time axis of a [datetime64[ns]] column: nanoseconds
    since 1970-01-01T00:00:00, whose ordinal is 719163. *)
Definition to_ns (x : t) : Z :=
  (((ymd2ord (year x) (month x) (day x) - 719163) * 86400
    + hour x * 3600 + minute x * 60 + second x) * 1000000
   + microsecond x) * 1000.

End datetime.

(** ** The pandas and numpy primitives the class calls *)

Module np.

(** [numpy.rint] on a float64: round to the nearest integer, ties to
    even; zeros, infinities, NaN and magnitudes from 2^52 on are already
    integral (or not numbers) and are returned as they are. *)
Definition rint (x : float) : float :=
  let two52 := 4503599627370496%float in
  if (x =? 0)%float then x
  else if (abs x <? two52)%float then
    if (x <? 0)%float then (- ((- x + two52) - two52))%float
    else ((x + two52) - two52)%float
  else x.

Fixpoint pow10 (decimals : nat) : float :=
  match decimals with
  | O => 1%float
  | S d => (10 * pow10 d)%float
  end.

(** [ndarray.round(decimals)] for a float64 and [decimals > 0]: scale,
    [rint], scale back. *)
Definition round (x : float) (decimals : nat) : float :=
  (rint (x * pow10 decimals) / pow10 decimals)%float.

End np.

Module pd.

Definition int64_min : Z := -9223372036854775808.
Definition int64_max : Z := 9223372036854775807.

(** A [datetime64[ns]] value that is not [NaT]: an int64 count of
    nanoseconds since the epoch, [int64_min] being reserved for [NaT]. *)
Definition in_bounds (v : Z) : bool := (int64_min <? v) && (v <=? int64_max).

Record Timestamp := mkTimestamp {
  value : Z;
  value_ok : in_bounds value = true
}.

(** A cell of a [datetime64[ns]] column; [None] is [NaT]. *)
Definition datetime64 : Type := option Timestamp.

(** [Series.isin(values)], elementwise. *)
Definition isin (values : list string) (x : string) : bool :=
  existsb (String.eqb x) values.

(** [Series >= bound] and [Series <= bound], elementwise, for a
    [datetime64[ns]] column and a naive [datetime]: [NaT] compares false
    with everything. *)
Definition ge (x : datetime64) (bound : datetime.t) : bool :=
  match x with
  | None => false
  | Some ts => datetime.to_ns bound <=? value ts
  end.

Definition le (x : datetime64) (bound : datetime.t) : bool :=
  match x with
  | None => false
  | Some ts => value ts <=? datetime.to_ns bound
  end.

(** [Series.unique()]: the distinct values in order of first appearance. *)
Fixpoint unique_from (seen : list string) (xs : list string) : list string :=
  match xs with
  | [] => []
  | x :: xs' =>
      if isin seen x then unique_from seen xs'
      else x :: unique_from (x :: seen) xs'
  end.

Definition unique (xs : list string) : list string := unique_from [] xs.

(** [DataFrame.head(n)] is [iloc[:n]]: the first [n] rows, and for a
    negative [n] all rows but the last [-n]. *)
Definition head {A : Type} (n : Z) (rows : list A) : list A :=
  if 0 <=? n then firstn (Z.to_nat n) rows
  else firstn (Z.to_nat (Z.of_nat (List.length rows) + n)) rows.

End pd.

(** ** Rows and tables *)

(** One record as the API returns it: every field is text.  The columns the
    class never reads are kept together in [raw_rest]. *)
Record RawRecord := mkRaw {
  raw_town : string;
  raw_flat_type : string;
  raw_month : string;
  raw_resale_price : string;
  raw_floor_area_sqm : string;
  raw_rest : list (string * string)
}.

(** One row of the enriched table. *)
Record Row := mkRow {
  town : string;
  flat_type : string;
  month : string;
  resale_price : float;
  floor_area_sqm : float;
  price_per_sqm : float;
  date : pd.datetime64;
  rest : list (string * string)
}.

Definition DataFrame : Type := list Row.

(** ** The object *)

Record ResaleFlats := mkResaleFlats {
  original_data : DataFrame;
  df : DataFrame
}.

Definition set_df (self : ResaleFlats) (d : DataFrame) : ResaleFlats :=
  {| original_data := original_data self; df := d |}.

(** A method: result and next state. *)
Definition method (A : Type) : Type := ResaleFlats -> A * ResaleFlats.

Definition reset : method unit :=
  fun self => (tt, set_df self (original_data self)).

Definition get_towns : method (list string) :=
  fun self => (pd.unique (map town (df self)), self).

Definition filter_by_town (towns : list string) : method DataFrame :=
  fun self =>
    let d := filter (fun r => pd.isin towns (town r)) (df self) in
    (d, set_df self d).

Definition filter_by_flat_type (flat_types : list string) : method DataFrame :=
  fun self =>
    let d := filter (fun r => pd.isin flat_types (flat_type r)) (df self) in
    (d, set_df self d).

(** The bounds here are absent or naive; [Raising.filter_by_time] below
    takes bounds that may carry a time zone and agrees with this one on
    the others. *)
Definition filter_by_time (start end_ : option datetime.t) : method DataFrame :=
  fun self =>
    let start :=
      match start with
      | None => datetime.ymd datetime.MINYEAR 1 1
      | Some s => s
      end in
    let end_ :=
      match end_ with
      | None => datetime.ymd datetime.MAXYEAR 12 31
      | Some e => e
      end in
    let d := filter (fun r => pd.ge (date r) start && pd.le (date r) end_)
                    (df self) in
    (d, set_df self d).

(** [show] hands [df.head(n)] to the notebook's [display]; the frame
    displayed is the method's result here. *)
Definition show (n : Z) : method DataFrame :=
  fun self => (pd.head n (df self), self).

(** ** Construction *)

Fixpoint traverse {A B : Type} (f : A -> option B) (xs : list A)
  : option (list B) :=
  match xs with
  | [] => Some []
  | x :: xs' =>
      match f x, traverse f xs' with
      | Some y, Some ys => Some (y :: ys)
      | _, _ => None
      end
  end.

Definition base_url : string :=
  "https://data.gov.sg/api/action/datastore_search".

Definition resource_ids : list string :=
  [ "f1765b54-a209-4718-8d38-a39237f502b3";
    "1b702208-44bf-4829-b620-4615ee19b57c";
    "83b2fc37-ce8c-4df4-968b-370fd818138b";
    "8c00bf08-9124-479e-aeca-7cc411d884c4";
    "adbbddd3-30e2-445f-a123-29bee150a6fe" ].

Definition limit : string := "1000000000".

Section Construction.

(** The collaborators of [fetch_data].  [fetch url] stands for
    [requests.get(url)] followed by [pd.json_normalize] of the body's
    [result.records]; [to_numeric] and [to_datetime] for the pandas
    parsers of one cell.  [None] is a raised error; [to_datetime] answers
    [Some None] where pandas answers [NaT]. *)
Variable fetch : string -> option (list RawRecord).
Variable to_numeric : string -> option float.
Variable to_datetime : string -> option pd.datetime64.

(** The four column assignments of [fetch_data], read along one row: the
    two coercions, the price per square metre and the parsed month. *)
Definition enrich (r : RawRecord) : option Row :=
  match to_numeric (raw_resale_price r),
        to_numeric (raw_floor_area_sqm r),
        to_datetime (raw_month r) with
  | Some price, Some area, Some d =>
      Some {| town := raw_town r;
              flat_type := raw_flat_type r;
              month := raw_month r;
              resale_price := price;
              floor_area_sqm := area;
              price_per_sqm := np.round (price / area)%float 2;
              date := d;
              rest := raw_rest r |}
  | _, _, _ => None
  end.

(** What [fetch_data] establishes for a row, from the row's own cells. *)
Definition derived (r : Row) : Prop :=
  price_per_sqm r = np.round (resale_price r / floor_area_sqm r)%float 2
  /\ to_datetime (month r) = Some (date r).

(** When no partition holds a record the concatenated frame has no column
    at all, and [df["resale_price"]] raises [KeyError]. *)
Definition fetch_data : option DataFrame :=
  match traverse
          (fun resource_id =>
             fetch (base_url ++ "?resource_id=" ++ resource_id
                             ++ "&limit=" ++ limit)%string)
          resource_ids with
  | Some dfs =>
      match List.concat dfs with
      | [] => None
      | (_ :: _) as records => traverse enrich records
      end
  | None => None
  end.

Definition __init__ : option ResaleFlats :=
  match fetch_data with
  | Some d => Some {| original_data := d; df := d |}
  | None => None
  end.

End Construction.

(** ** Sequences of method calls *)

Inductive call :=
| Reset
| GetTowns
| FilterByTown (towns : list string)
| FilterByFlatType (flat_types : list string)
| FilterByTime (start end_ : option datetime.t)
| Show (n : Z).

Definition step (self : ResaleFlats) (c : call) : ResaleFlats :=
  match c with
  | Reset => snd (reset self)
  | GetTowns => snd (get_towns self)
  | FilterByTown towns => snd (filter_by_town towns self)
  | FilterByFlatType flat_types => snd (filter_by_flat_type flat_types self)
  | FilterByTime start end_ => snd (filter_by_time start end_ self)
  | Show n => snd (show n self)
  end.

Definition run (calls : list call) (self : ResaleFlats) : ResaleFlats :=
  fold_left step calls self.

(** ** Selection, stated without [filter] *)

(** [Keeps P rows kept]: [kept] is [rows] with exactly the rows satisfying
    [P] retained, each as often as it occurs and in the same order. *)
Inductive Keeps {A : Type} (P : A -> Prop) : list A -> list A -> Prop :=
| Keeps_nil : Keeps P [] []
| Keeps_take x rows kept :
    P x -> Keeps P rows kept -> Keeps P (x :: rows) (x :: kept)
| Keeps_drop x rows kept :
    ~ P x -> Keeps P rows kept -> Keeps P (x :: rows) kept.

(** The rows whose date lies in the closed range [start, end_]. *)
Definition in_range (start end_ : datetime.t) (r : Row) : Prop :=
  exists ts, date r = Some ts
             /\ datetime.to_ns start <= pd.value ts <= datetime.to_ns end_.

(** [start > end_] on naive datetimes. *)
Definition later (start end_ : datetime.t) : Prop :=
  datetime.to_ns end_ < datetime.to_ns start.

(** The bounds [filter_by_time] works with once the defaults are filled in. *)
Definition lower (start : option datetime.t) : datetime.t :=
  match start with
  | None => datetime.ymd datetime.MINYEAR 1 1
  | Some s => s
  end.

Definition upper (end_ : option datetime.t) : datetime.t :=
  match end_ with
  | None => datetime.ymd datetime.MAXYEAR 12 31
  | Some e => e
  end.

(** One selection of a table with both predicates conjoined:
    [t[t.town.isin(towns) & (t.date >= start) & (t.date <= end_)]]. *)
Definition filter_once (towns : list string) (start end_ : datetime.t)
           (table : DataFrame) : DataFrame :=
  filter (fun r => pd.isin towns (town r)
                   && (pd.ge (date r) start && pd.le (date r) end_))
         table.

(** A row has a date when its [date] cell is not [NaT]. *)
Definition dated (r : Row) : Prop := date r <> None.

(** The working view holds only rows of the snapshot. *)
Definition view_of_snapshot (self : ResaleFlats) : Prop :=
  incl (df self) (original_data self).

(** ** [filter_by_time] with bounds that may carry a time zone *)

(** The exception a filter can end in, and the outcome of a call that may
    raise. *)
Inductive exception := TypeError.

Inductive outcome (A : Type) : Type :=
| Returned (a : A)
| Raised (e : exception).

Arguments Returned {A} a.
Arguments Raised {A} e.

Module Raising.

(** A [datetime] with its [tzinfo]: [None] for a naive one, and for an
    aware one the offset from UTC, in seconds, of its fixed zone. *)
Record datetime_tz := mk {
  fields : datetime.t;
  tzinfo : option Z
}.

(** A bound is aware when it is given and has a [tzinfo]. *)
Definition is_aware (bound : option datetime_tz) : bool :=
  match bound with
  | Some x => match tzinfo x with Some _ => true | None => false end
  | None => false
  end.

(** The naive datetime of a bound, if one is given. *)
Definition strip (bound : option datetime_tz) : option datetime.t :=
  match bound with
  | Some x => Some (fields x)
  | None => None
  end.

(** [Series >= bound] and [Series <= bound] on the [date] column, which is
    [datetime64[ns]] without a zone: pandas refuses an aware bound with a
    [TypeError], whatever the column holds, and compares cell by cell with
    a naive one. *)
Definition series_ge (column : list pd.datetime64) (bound : datetime_tz)
  : outcome (list bool) :=
  match tzinfo bound with
  | Some _ => Raised TypeError
  | None => Returned (map (fun x => pd.ge x (fields bound)) column)
  end.

Definition series_le (column : list pd.datetime64) (bound : datetime_tz)
  : outcome (list bool) :=
  match tzinfo bound with
  | Some _ => Raised TypeError
  | None => Returned (map (fun x => pd.le x (fields bound)) column)
  end.

(** [mask1 & mask2], elementwise. *)
Definition mask_and (mask1 mask2 : list bool) : list bool :=
  map (fun p => fst p && snd p) (combine mask1 mask2).

(** [df[mask]]: the rows at the positions where the mask is true. *)
Fixpoint select (rows : DataFrame) (mask : list bool) : DataFrame :=
  match rows, mask with
  | r :: rows', b :: mask' =>
      if b then r :: select rows' mask' else select rows' mask'
  | _, _ => []
  end.

(** [filter_by_time] as the class has it, the two comparisons evaluated
    in turn before [df] is assigned: a comparison that raises leaves the
    object as it was. *)
Definition filter_by_time (start end_ : option datetime_tz)
  : ResaleFlats -> outcome (DataFrame * ResaleFlats) :=
  fun self =>
    let start :=
      match start with
      | None => mk (datetime.ymd datetime.MINYEAR 1 1) None
      | Some s => s
      end in
    let end_ :=
      match end_ with
      | None => mk (datetime.ymd datetime.MAXYEAR 12 31) None
      | Some e => e
      end in
    match series_ge (map date (df self)) start with
    | Raised e => Raised e
    | Returned after_start =>
        match series_le (map date (df self)) end_ with
        | Raised e => Raised e
        | Returned before_end =>
            let d := select (df self) (mask_and after_start before_end) in
            Returned (d, set_df self d)
        end
    end.

End Raising.

(** ** Notions for sequences of calls *)

(** The address [fetch_data] requests for one partition. *)
Definition request_url (resource_id : string) : string :=
  (base_url ++ "?resource_id=" ++ resource_id ++ "&limit=" ++ limit)%string.

(** A row of the enriched table stands for a fetched record: the text
    cells are the record's, the numeric and date cells their parses. *)
Definition corresponds (to_numeric : string -> option float)
           (to_datetime : string -> option pd.datetime64)
           (raw : RawRecord) (r : Row) : Prop :=
  town r = raw_town raw
  /\ flat_type r = raw_flat_type raw
  /\ month r = raw_month raw
  /\ rest r = raw_rest raw
  /\ to_numeric (raw_resale_price raw) = Some (resale_price r)
  /\ to_numeric (raw_floor_area_sqm raw) = Some (floor_area_sqm r)
  /\ to_datetime (raw_month raw) = Some (date r).

(** The rows a call lets through; [Reset] aside, a call that is no filter
    lets every row through. *)
Definition accepts (c : call) (r : Row) : Prop :=
  match c with
  | FilterByTown towns => In (town r) towns
  | FilterByFlatType flat_types => In (flat_type r) flat_types
  | FilterByTime start end_ => in_range (lower start) (upper end_) r
  | _ => True
  end.

(** [Subseq kept rows]: [kept] is [rows] with some rows left out, the
    others in their order. *)
Inductive Subseq {A : Type} : list A -> list A -> Prop :=
| Subseq_nil : Subseq [] []
| Subseq_take x kept rows : Subseq kept rows -> Subseq (x :: kept) (x :: rows)
| Subseq_skip x kept rows : Subseq kept rows -> Subseq kept (x :: rows).

(** The rows dated on or after [start], and on or before [end_]. *)
Definition not_before (start : datetime.t) (r : Row) : Prop :=
  exists ts, date r = Some ts /\ datetime.to_ns start <= pd.value ts.

Definition not_after (end_ : datetime.t) (r : Row) : Prop :=
  exists ts, date r = Some ts /\ pd.value ts <= datetime.to_ns end_.

(** ** Sample data *)

Definition ts_2020_01 : pd.Timestamp :=
  pd.mkTimestamp (datetime.to_ns (datetime.ymd 2020 1 1)) eq_refl.

Definition ts_2021_06 : pd.Timestamp :=
  pd.mkTimestamp (datetime.to_ns (datetime.ymd 2021 6 1)) eq_refl.

Definition bedok_2020 : Row :=
  {| town := "Bedok"; flat_type := "3 ROOM"; month := "2020-01";
     resale_price := 300000; floor_area_sqm := 67;
     price_per_sqm := np.round (300000 / 67)%float 2;
     date := Some ts_2020_01; rest := [("block", "12")] |}.

Definition yishun_2021 : Row :=
  {| town := "Yishun"; flat_type := "4 ROOM"; month := "2021-06";
     resale_price := 450000; floor_area_sqm := 92;
     price_per_sqm := np.round (450000 / 92)%float 2;
     date := Some ts_2021_06; rest := [("block", "7")] |}.

(** A row whose month cell was empty: [pd.to_datetime] left [NaT]. *)
Definition bedok_undated : Row :=
  {| town := "Bedok"; flat_type := "5 ROOM"; month := "";
     resale_price := 500000; floor_area_sqm := 110;
     price_per_sqm := np.round (500000 / 110)%float 2;
     date := None; rest := [] |}.

Definition raw_bedok : RawRecord :=
  {| raw_town := "Bedok"; raw_flat_type := "3 ROOM"; raw_month := "2020-01";
     raw_resale_price := "300000"; raw_floor_area_sqm := "67";
     raw_rest := [("block", "12")] |}.

Definition raw_yishun : RawRecord :=
  {| raw_town := "Yishun"; raw_flat_type := "4 ROOM"; raw_month := "2021-06";
     raw_resale_price := "450000"; raw_floor_area_sqm := "92";
     raw_rest := [("block", "7")] |}.

(** A record whose month cell is empty. *)
Definition raw_undated : RawRecord :=
  {| raw_town := "Bedok"; raw_flat_type := "5 ROOM"; raw_month := "";
     raw_resale_price := "500000"; raw_floor_area_sqm := "110";
     raw_rest := [] |}.

(** An API whose first partition holds a dated and an undated record and
    the others nothing. *)
Definition undated_fetch (url : string) : option (list RawRecord) :=
  if String.eqb url
       (base_url ++ "?resource_id=f1765b54-a209-4718-8d38-a39237f502b3"
                 ++ "&limit=1000000000")%string
  then Some [raw_bedok; raw_undated]
  else Some [].

(** An API whose first partition holds two records and the others one. *)
Definition sample_fetch (url : string) : option (list RawRecord) :=
  if String.eqb url
       (base_url ++ "?resource_id=f1765b54-a209-4718-8d38-a39237f502b3"
                 ++ "&limit=1000000000")%string
  then Some [raw_bedok; raw_yishun]
  else Some [raw_bedok].

Definition sample_to_numeric (cell : string) : option float :=
  if String.eqb cell "300000" then Some 300000%float
  else if String.eqb cell "67" then Some 67%float
  else if String.eqb cell "450000" then Some 450000%float
  else if String.eqb cell "92" then Some 92%float
  else if String.eqb cell "500000" then Some 500000%float
  else if String.eqb cell "110" then Some 110%float
  else None.

Definition sample_to_datetime (cell : string) : option pd.datetime64 :=
  if String.eqb cell "2020-01" then Some (Some ts_2020_01)
  else if String.eqb cell "2021-06" then Some (Some ts_2021_06)
  else if String.eqb cell "" then Some None
  else None.

Definition constructed : ResaleFlats :=
  let d := [bedok_2020; yishun_2021;
            bedok_2020; bedok_2020; bedok_2020; bedok_2020] in
  {| original_data := d; df := d |}.

Definition sample : ResaleFlats :=
  {| original_data := [bedok_2020; yishun_2021; bedok_2020];
     df := [bedok_2020; yishun_2021; bedok_2020] |}.

Definition sample_undated : ResaleFlats :=
  {| original_data := [bedok_2020; bedok_undated];
     df := [bedok_2020; bedok_undated] |}.

(** A record whose price cell is no number, and an API serving it. *)
Definition raw_unpriced : RawRecord :=
  {| raw_town := "Bedok"; raw_flat_type := "3 ROOM"; raw_month := "2020-01";
     raw_resale_price := "n/a"; raw_floor_area_sqm := "67";
     raw_rest := [] |}.

Definition unpriced_fetch (url : string) : option (list RawRecord) :=
  if String.eqb url (request_url "83b2fc37-ce8c-4df4-968b-370fd818138b")
  then Some [raw_bedok; raw_unpriced]
  else Some [raw_yishun].

(** An API whose fourth partition cannot be reached. *)
Definition failing_fetch (url : string) : option (list RawRecord) :=
  if String.eqb url (request_url "8c00bf08-9124-479e-aeca-7cc411d884c4")
  then None
  else Some [raw_bedok].

(** [datetime(2020, 1, 1, tzinfo=timezone.utc)] and the same without a
    zone. *)
Definition utc_2020 : Raising.datetime_tz :=
  Raising.mk (datetime.ymd 2020 1 1) (Some 0).

Definition naive_2020 : Raising.datetime_tz :=
  Raising.mk (datetime.ymd 2020 1 1) None.

Definition naive_1999 : Raising.datetime_tz :=
  Raising.mk (datetime.ymd 1999 12 31) None.

(** An API all of whose partitions are empty. *)
Definition empty_fetch (url : string) : option (list RawRecord) := Some [].

(** ** Sanity checks of the primitives *)

Example to_ns_epoch : datetime.to_ns (datetime.ymd 1970 1 1) = 0.
Proof. reflexivity. Qed.

Example to_ns_2020 :
  datetime.to_ns (datetime.ymd 2020 1 1) = 1577836800 * 1000000000.
Proof. reflexivity. Qed.

Example round_example :
  np.round (232000 / 44)%float 2 = (527273 / 100)%float.
Proof. reflexivity. Qed.

(** Ties go to the even neighbour: 12.5 rounds to 12. *)
Example round_half_even : np.round 0.125%float 2 = (12 / 100)%float.
Proof. reflexivity. Qed.

(** A zero floor area gives an infinite price, no error. *)
Example round_division_by_zero : np.round (300000 / 0)%float 2 = infinity.
Proof. reflexivity. Qed.

Example construction_of_sample :
  __init__ sample_fetch sample_to_numeric sample_to_datetime = Some constructed.
Proof. reflexivity. Qed.

Example unique_first_appearance :
  pd.unique ["BEDOK"; "YISHUN"; "BEDOK"; "ANG MO KIO"; "YISHUN"]
  = ["BEDOK"; "YISHUN"; "ANG MO KIO"].
Proof. reflexivity. Qed.

Example head_negative : pd.head (-2) [1; 2; 3; 4; 5] = [1; 2; 3].
Proof. reflexivity. Qed.

(** ** Lemmas on the primitives *)

(** Unfolds the method calls of a goal down to the selections they make. *)
Ltac run_methods :=
  cbn [reset get_towns filter_by_town filter_by_flat_type filter_by_time show
       fst snd df original_data set_df].

Lemma isin_In (values : list string) (x : string) :
  pd.isin values x = true <-> In x values.
Proof.
  unfold pd.isin. rewrite existsb_exists. split.
  - intros [y [Hy Heq]]. apply String.eqb_eq in Heq. now subst.
  - intros H. exists x. split; [assumption | apply String.eqb_refl].
Qed.

Lemma filter_Keeps {A : Type} (f : A -> bool) (P : A -> Prop) :
  (forall x, f x = true <-> P x) ->
  forall rows, Keeps P rows (filter f rows).
Proof.
  intros Hf rows. induction rows as [|x rows IH]; simpl.
  - constructor.
  - destruct (f x) eqn:E.
    + apply Keeps_take; [now apply Hf | exact IH].
    + apply Keeps_drop; [| exact IH].
      intros HP. apply Hf in HP. congruence.
Qed.

(** [Keeps] determines the rows kept. *)
Lemma Keeps_unique {A : Type} (P : A -> Prop) (rows k1 k2 : list A) :
  Keeps P rows k1 -> Keeps P rows k2 -> k1 = k2.
Proof.
  intros H1. revert k2.
  induction H1; intros k2 H2; inversion H2; subst;
    try reflexivity; try contradiction.
  - f_equal. now apply IHKeeps.
  - now apply IHKeeps.
Qed.

Lemma filter_nothing {A : Type} (f : A -> bool) (rows : list A) :
  (forall x, In x rows -> f x = false) -> filter f rows = [].
Proof.
  induction rows as [|x rows IH]; simpl; intros H; [reflexivity|].
  rewrite (H x (or_introl eq_refl)). apply IH. intros y Hy. apply H. now right.
Qed.

Lemma filter_everything {A : Type} (f : A -> bool) (rows : list A) :
  (forall x, In x rows -> f x = true) -> filter f rows = rows.
Proof.
  induction rows as [|x rows IH]; simpl; intros H; [reflexivity|].
  rewrite (H x (or_introl eq_refl)). f_equal. apply IH.
  intros y Hy. apply H. now right.
Qed.

Lemma in_range_spec (start end_ : datetime.t) (r : Row) :
  pd.ge (date r) start && pd.le (date r) end_ = true <-> in_range start end_ r.
Proof.
  unfold in_range, pd.ge, pd.le. destruct (date r) as [ts|]; simpl.
  - rewrite andb_true_iff, !Z.leb_le. split.
    + intros H. exists ts. split; [reflexivity | lia].
    + intros [ts' [Heq H]]. injection Heq as <-. lia.
  - split; [discriminate | intros [ts [Heq _]]; discriminate].
Qed.

(** ** The filters *)

(** C1. For every working view and every list of towns, [filter_by_town]
    returns, and installs as the working view, exactly the rows of the
    current view whose town is a member of the list, in their order;
    [filter_by_flat_type] does the same on the flat type; with the empty
    list either result has no rows. *)
Theorem filter_by_member_exact (self : ResaleFlats) (values : list string) :
  Keeps (fun r => In (town r) values) (df self)
        (fst (filter_by_town values self))
  /\ df (snd (filter_by_town values self)) = fst (filter_by_town values self)
  /\ Keeps (fun r => In (flat_type r) values) (df self)
           (fst (filter_by_flat_type values self))
  /\ df (snd (filter_by_flat_type values self))
     = fst (filter_by_flat_type values self)
  /\ fst (filter_by_town [] self) = []
  /\ fst (filter_by_flat_type [] self) = [].
Proof.
  repeat split; simpl.
  - apply filter_Keeps. intros r. apply isin_In.
  - apply filter_Keeps. intros r. apply isin_In.
  - now apply filter_nothing.
  - now apply filter_nothing.
Qed.

(** C2. For every working view and all given [start] and [end_],
    [filter_by_time] returns, and installs as the working view, exactly the
    rows whose date [d] satisfies [start <= d <= end_], both bounds
    included; when [start > end_] the result has no rows. *)
Theorem filter_by_time_inclusive
        (self : ResaleFlats) (start end_ : datetime.t) :
  Keeps (in_range start end_) (df self)
        (fst (filter_by_time (Some start) (Some end_) self))
  /\ df (snd (filter_by_time (Some start) (Some end_) self))
     = fst (filter_by_time (Some start) (Some end_) self)
  /\ (later start end_ ->
      fst (filter_by_time (Some start) (Some end_) self) = []).
Proof.
  repeat split; simpl.
  - apply filter_Keeps. intros r. apply in_range_spec.
  - intros Hlater. apply filter_nothing. intros r _.
    unfold later in Hlater. unfold pd.ge, pd.le.
    destruct (date r) as [ts|]; [|reflexivity].
    apply andb_false_iff.
    destruct (Z.leb_spec (datetime.to_ns start) (pd.value ts));
      [right; apply Z.leb_gt; lia | now left].
Qed.

Lemma filter_by_time_inclusive_witness :
  fst (filter_by_time (Some (datetime.ymd 2021 1 1))
                      (Some (datetime.ymd 2020 1 1)) sample) = [].
Proof.
  apply (proj2 (proj2 (filter_by_time_inclusive
                         sample (datetime.ymd 2021 1 1)
                         (datetime.ymd 2020 1 1)))).
  unfold later. vm_compute. reflexivity.
Defined.

(** ** The snapshot and [reset] *)

Lemma step_original_data (self : ResaleFlats) (c : call) :
  original_data (step self c) = original_data self.
Proof. destruct c; reflexivity. Qed.

Lemma run_original_data (calls : list call) (self : ResaleFlats) :
  original_data (run calls self) = original_data self.
Proof.
  revert self. induction calls as [|c calls IH]; intros self; simpl.
  - reflexivity.
  - unfold run in IH. rewrite IH. apply step_original_data.
Qed.

Lemma step_view_of_snapshot (self : ResaleFlats) (c : call) :
  view_of_snapshot self -> view_of_snapshot (step self c).
Proof.
  unfold view_of_snapshot. intros H.
  destruct c; simpl; try assumption; try apply incl_refl;
    (intros r Hr; apply filter_In in Hr; apply H; tauto).
Qed.

Lemma run_view_of_snapshot (calls : list call) (self : ResaleFlats) :
  view_of_snapshot self -> view_of_snapshot (run calls self).
Proof.
  revert self. induction calls as [|c calls IH]; intros self H; simpl.
  - exact H.
  - apply IH. now apply step_view_of_snapshot.
Qed.

(** C3. No method changes the snapshot, singly or in any sequence, and
    after any sequence of calls [reset] makes the working view the snapshot
    again, in content and so in row count. *)
Theorem reset_restores_snapshot (self : ResaleFlats) (calls : list call) :
  (forall c, original_data (step self c) = original_data self)
  /\ original_data (run calls self) = original_data self
  /\ df (snd (reset (run calls self))) = original_data self
  /\ List.length (df (snd (reset (run calls self))))
     = List.length (original_data self).
Proof.
  assert (H : df (snd (reset (run calls self))) = original_data self)
    by (simpl; apply run_original_data).
  repeat split.
  - intros c. apply step_original_data.
  - apply run_original_data.
  - exact H.
  - now rewrite H.
Qed.

(** ** The derived columns *)

Lemma traverse_In {A B : Type} (f : A -> option B) (xs : list A) (ys : list B) :
  traverse f xs = Some ys ->
  forall y, In y ys -> exists x, In x xs /\ f x = Some y.
Proof.
  revert ys. induction xs as [|x xs IH]; simpl; intros ys H y Hy.
  - injection H as <-. destruct Hy.
  - destruct (f x) as [y0|] eqn:Efx; [|discriminate].
    destruct (traverse f xs) as [ys0|]; [|discriminate].
    injection H as <-. destruct Hy as [<- | Hy].
    + exists x. auto.
    + destruct (IH ys0 eq_refl y Hy) as [x' [Hx' Hfx']].
      exists x'. auto.
Qed.

Section Enriched.

Variable fetch : string -> option (list RawRecord).
Variable to_numeric : string -> option float.
Variable to_datetime : string -> option pd.datetime64.

Lemma enrich_derived (raw : RawRecord) (r : Row) :
  enrich to_numeric to_datetime raw = Some r -> derived to_datetime r.
Proof.
  unfold enrich, derived. intros H.
  destruct (to_numeric (raw_resale_price raw)) as [price|]; [|discriminate].
  destruct (to_numeric (raw_floor_area_sqm raw)) as [area|]; [|discriminate].
  destruct (to_datetime (raw_month raw)) as [d|] eqn:Ed; [|discriminate].
  injection H as <-. simpl. auto.
Qed.

Lemma fetch_data_derived (d : DataFrame) :
  fetch_data fetch to_numeric to_datetime = Some d ->
  forall r, In r d -> derived to_datetime r.
Proof.
  unfold fetch_data. intros H r Hr.
  destruct (traverse _ resource_ids) as [dfs|]; [|discriminate].
  destruct (List.concat dfs) as [|raw0 raws]; [discriminate|].
  destruct (traverse_In _ _ _ H r Hr) as [raw [_ Hraw]].
  exact (enrich_derived raw r Hraw).
Qed.

Lemma init_state (self : ResaleFlats) :
  __init__ fetch to_numeric to_datetime = Some self ->
  fetch_data fetch to_numeric to_datetime = Some (original_data self)
  /\ df self = original_data self.
Proof.
  unfold __init__. intros H.
  destruct (fetch_data fetch to_numeric to_datetime) as [d|]; [|discriminate].
  injection H as <-. auto.
Qed.

End Enriched.

(** C4. On a constructed object, whatever calls follow, every row of the
    working view and of the snapshot is a row of the snapshot built at
    construction, with [price_per_sqm] equal to
    [round(resale_price / floor_area_sqm, 2)] and [date] the parse of
    [month]: the derived columns are those computed by [fetch_data], and no
    later call writes them. *)
Theorem derived_columns_fixed_at_construction
        (fetch : string -> option (list RawRecord))
        (to_numeric : string -> option float)
        (to_datetime : string -> option pd.datetime64)
        (self : ResaleFlats) (calls : list call) (r : Row) :
  __init__ fetch to_numeric to_datetime = Some self ->
  In r (df (run calls self)) \/ In r (original_data (run calls self)) ->
  In r (original_data self)
  /\ price_per_sqm r = np.round (resale_price r / floor_area_sqm r)%float 2
  /\ to_datetime (month r) = Some (date r).
Proof.
  intros Hinit Hr.
  destruct (init_state _ _ _ _ Hinit) as [Hfetch Hdf].
  assert (Hin : In r (original_data self)).
  { destruct Hr as [Hr | Hr].
    - apply (run_view_of_snapshot calls self) in Hr; [|].
      + now rewrite run_original_data in Hr.
      + unfold view_of_snapshot. rewrite Hdf. apply incl_refl.
    - now rewrite run_original_data in Hr. }
  split; [exact Hin|].
  exact (fetch_data_derived _ _ _ _ Hfetch r Hin).
Qed.

Lemma derived_columns_fixed_at_construction_witness :
  In yishun_2021 (original_data constructed)
  /\ price_per_sqm yishun_2021
     = np.round (resale_price yishun_2021 / floor_area_sqm yishun_2021)%float 2
  /\ sample_to_datetime (month yishun_2021) = Some (date yishun_2021).
Proof.
  apply (derived_columns_fixed_at_construction
           sample_fetch sample_to_numeric sample_to_datetime constructed
           [FilterByTown ["Yishun"]; Show 5; Reset;
            FilterByTime None (Some (datetime.ymd 2021 12 31))]
           yishun_2021).
  - reflexivity.
  - left. simpl. right. left. reflexivity.
Defined.

(** ** [filter_by_time] without bounds *)

Lemma min_ns :
  datetime.to_ns (datetime.ymd datetime.MINYEAR 1 1) = -62135596800000000000.
Proof. reflexivity. Qed.

Lemma max_ns :
  datetime.to_ns (datetime.ymd datetime.MAXYEAR 12 31) = 253402214400000000000.
Proof. reflexivity. Qed.

(** Every timestamp of a [datetime64[ns]] column lies between the two
    default bounds. *)
Lemma Timestamp_within_defaults (ts : pd.Timestamp) :
  datetime.to_ns (lower None) <= pd.value ts <= datetime.to_ns (upper None).
Proof.
  pose proof (pd.value_ok ts) as H. unfold pd.in_bounds in H.
  apply andb_true_iff in H. destruct H as [Hlo Hhi].
  apply Z.ltb_lt in Hlo. apply Z.leb_le in Hhi.
  unfold lower, upper. rewrite min_ns, max_ns.
  unfold pd.int64_min in Hlo. unfold pd.int64_max in Hhi. lia.
Qed.

Lemma unbounded_mask (r : Row) :
  pd.ge (date r) (lower None) && pd.le (date r) (upper None) = true
  <-> dated r.
Proof.
  rewrite in_range_spec. unfold in_range, dated. split.
  - intros [ts [Heq _]]. congruence.
  - intros H. destruct (date r) as [ts|]; [|contradiction].
    exists ts. split; [reflexivity | apply Timestamp_within_defaults].
Qed.

Lemma set_df_same (self : ResaleFlats) : set_df self (df self) = self.
Proof. destruct self. reflexivity. Qed.

(** C5, as stated, fails: a row whose date is [NaT] compares false with
    both default bounds and is dropped.  The object is one that [__init__]
    builds when a record comes with an empty month. *)
Lemma filter_by_time_unbounded_drops_undated :
  __init__ undated_fetch sample_to_numeric sample_to_datetime
  = Some sample_undated
  /\ df sample_undated = [bedok_2020; bedok_undated]
  /\ fst (filter_by_time None None sample_undated) = [bedok_2020]
  /\ fst (filter_by_time None None sample_undated) <> df sample_undated.
Proof. repeat split; discriminate. Qed.

(** C5, amended. [filter_by_time(None, None)] keeps exactly the rows that
    have a date (every timestamp lies between the two default bounds); on a
    working view all of whose rows have a date it returns the view and
    leaves the object as it is. *)
Theorem filter_by_time_unbounded (self : ResaleFlats) :
  Keeps dated (df self) (fst (filter_by_time None None self))
  /\ (Forall dated (df self) ->
      filter_by_time None None self = (df self, self)).
Proof.
  split.
  - simpl. apply filter_Keeps. intros r. apply unbounded_mask.
  - intros Hall. unfold filter_by_time.
    fold (lower None). fold (upper None).
    rewrite filter_everything.
    + now rewrite set_df_same.
    + intros r Hr. apply unbounded_mask.
      rewrite Forall_forall in Hall. now apply Hall.
Qed.

Lemma filter_by_time_unbounded_witness :
  filter_by_time None None sample = (df sample, sample).
Proof.
  apply (proj2 (filter_by_time_unbounded sample)).
  repeat constructor; discriminate.
Defined.

(** ** [get_towns] and repeated town filters *)

Lemma unique_from_In (seen xs : list string) (x : string) :
  In x (pd.unique_from seen xs) <-> In x xs /\ ~ In x seen.
Proof.
  revert seen. induction xs as [|y xs IH]; intros seen; simpl.
  - tauto.
  - destruct (pd.isin seen y) eqn:E.
    + apply isin_In in E. rewrite IH. split.
      * tauto.
      * intros [[<- | H] Hn]; [contradiction | tauto].
    + assert (Hy : ~ In y seen)
        by (intros H; apply isin_In in H; congruence).
      simpl. rewrite IH. simpl.
      destruct (string_dec y x) as [-> | Hne]; intuition auto.
Qed.

Lemma unique_from_NoDup (seen xs : list string) :
  NoDup (pd.unique_from seen xs).
Proof.
  revert seen. induction xs as [|y xs IH]; intros seen; simpl.
  - constructor.
  - destruct (pd.isin seen y); [apply IH|].
    constructor; [|apply IH].
    rewrite unique_from_In. simpl. tauto.
Qed.

Lemma unique_from_all_seen (seen xs : list string) :
  (forall x, In x xs -> In x seen) -> pd.unique_from seen xs = [].
Proof.
  induction xs as [|y xs IH]; simpl; intros H; [reflexivity|].
  assert (E : pd.isin seen y = true) by (apply isin_In; apply H; now left).
  rewrite E. apply IH. intros x Hx. apply H. now right.
Qed.

Lemma get_towns_In (self : ResaleFlats) (x : string) :
  In x (fst (get_towns self)) <-> exists r, In r (df self) /\ town r = x.
Proof.
  simpl. unfold pd.unique. rewrite unique_from_In, in_map_iff. simpl. split.
  - intros [[r [Ht Hr]] _]. exists r. auto.
  - intros [r [Hr Ht]]. split; [exists r; auto | tauto].
Qed.

(** C6. Filtering by a list of towns and then again by the same list, or
    by any list holding every town present in the view just obtained,
    leaves the working view, and so its row count, as the first filter
    left it.  The list need not be non-empty. *)
Theorem filter_by_town_idempotent
        (self : ResaleFlats) (towns again : list string) :
  again = towns
  \/ incl (fst (get_towns (snd (filter_by_town towns self)))) again ->
  df (snd (filter_by_town again (snd (filter_by_town towns self))))
  = df (snd (filter_by_town towns self))
  /\ List.length
       (df (snd (filter_by_town again (snd (filter_by_town towns self)))))
     = List.length (df (snd (filter_by_town towns self))).
Proof.
  intros H.
  assert (E : df (snd (filter_by_town again (snd (filter_by_town towns self))))
              = df (snd (filter_by_town towns self))).
  { run_methods.
    apply filter_everything. intros r Hr. apply isin_In.
    destruct H as [-> | Hincl].
    - apply filter_In in Hr. apply isin_In. tauto.
    - apply Hincl. apply get_towns_In. exists r. auto. }
  split; [exact E | now rewrite E].
Qed.

Lemma filter_by_town_idempotent_witness :
  df (snd (filter_by_town ["Bedok"; "Yishun"; "Tampines"]
             (snd (filter_by_town ["Bedok"] sample))))
  = df (snd (filter_by_town ["Bedok"] sample))
  /\ List.length
       (df (snd (filter_by_town ["Bedok"; "Yishun"; "Tampines"]
                   (snd (filter_by_town ["Bedok"] sample)))))
     = List.length (df (snd (filter_by_town ["Bedok"] sample))).
Proof.
  apply (filter_by_town_idempotent sample ["Bedok"]
           ["Bedok"; "Yishun"; "Tampines"]).
  right. intros x Hx. simpl in Hx. destruct Hx as [<- | []]. simpl. auto.
Defined.

(** C7. [get_towns] returns, without repetition, the town values of the
    rows of the working view: it reads the working view alone, whatever the
    snapshot holds, and leaves the object as it is; after
    [filter_by_town(["Bedok"])] on a view with a Bedok row it returns
    exactly [["Bedok"]]. *)
Theorem get_towns_of_working_view (self : ResaleFlats) :
  (forall x, In x (fst (get_towns self))
             <-> exists r, In r (df self) /\ town r = x)
  /\ NoDup (fst (get_towns self))
  /\ snd (get_towns self) = self
  /\ (forall snapshot,
         fst (get_towns {| original_data := snapshot; df := df self |})
         = fst (get_towns self))
  /\ ((exists r, In r (df self) /\ town r = "Bedok") ->
      fst (get_towns (snd (filter_by_town ["Bedok"] self))) = ["Bedok"]).
Proof.
  split; [intros x; apply get_towns_In|].
  split; [apply unique_from_NoDup|].
  split; [reflexivity|].
  split; [reflexivity|].
  intros [r [Hr Ht]].
  run_methods.
  assert (Hall : forall x,
             In x (map town (filter (fun r => pd.isin ["Bedok"] (town r))
                                    (df self))) -> x = "Bedok").
  { intros x Hx. apply in_map_iff in Hx. destruct Hx as [r' [<- Hr']].
    apply filter_In in Hr'. destruct Hr' as [_ Hr'].
    apply isin_In in Hr'. simpl in Hr'. destruct Hr' as [<- | []].
    reflexivity. }
  assert (Hne : In "Bedok"
                   (map town (filter (fun r => pd.isin ["Bedok"] (town r))
                                     (df self)))).
  { apply in_map_iff. exists r. split; [exact Ht|].
    apply filter_In. split; [exact Hr|]. apply isin_In. rewrite Ht.
    simpl. auto. }
  destruct (map town _) as [|y ys]; [destruct Hne|].
  assert (Ey : y = "Bedok") by (apply Hall; now left). subst y.
  unfold pd.unique. simpl. f_equal.
  apply unique_from_all_seen. intros x Hx. left. symmetry. apply Hall.
  now right.
Qed.

Lemma get_towns_of_working_view_witness :
  fst (get_towns (snd (filter_by_town ["Bedok"] sample))) = ["Bedok"].
Proof.
  apply (proj2 (proj2 (proj2 (proj2 (get_towns_of_working_view sample))))).
  exists bedok_2020. split; [simpl; auto | reflexivity].
Defined.

(** ** Order of the filters *)

Lemma filter_twice {A : Type} (f g : A -> bool) (rows : list A) :
  filter g (filter f rows) = filter (fun x => f x && g x) rows.
Proof.
  induction rows as [|x rows IH]; simpl; [reflexivity|].
  destruct (f x); simpl; [destruct (g x)|]; now rewrite IH.
Qed.

Lemma filter_ext_bool {A : Type} (f g : A -> bool) (rows : list A) :
  (forall x, f x = g x) -> filter f rows = filter g rows.
Proof.
  intros H. induction rows as [|x rows IH]; simpl; [reflexivity|].
  now rewrite H, IH.
Qed.

Lemma filter_once_Keeps (towns : list string) (start end_ : datetime.t)
      (table : DataFrame) :
  Keeps (fun r => In (town r) towns /\ in_range start end_ r) table
        (filter_once towns start end_ table).
Proof.
  apply filter_Keeps. intros r.
  rewrite andb_true_iff, isin_In, in_range_spec. tauto.
Qed.

(** C8. From the snapshot as working view, [filter_by_town] then
    [filter_by_time] leaves the rows that one selection of the snapshot
    with both predicates conjoined keeps, and so does [filter_by_time] then
    [filter_by_town]; the three row counts are equal. *)
Theorem town_and_time_commute
        (self : ResaleFlats) (towns : list string) (start end_ : datetime.t) :
  let fresh := snd (reset self) in
  let town_first :=
    snd (filter_by_time (Some start) (Some end_)
           (snd (filter_by_town towns fresh))) in
  let time_first :=
    snd (filter_by_town towns
           (snd (filter_by_time (Some start) (Some end_) fresh))) in
  let once := filter_once towns start end_ (original_data self) in
  Keeps (fun r => In (town r) towns /\ in_range start end_ r)
        (original_data self) once
  /\ df town_first = once
  /\ df time_first = once
  /\ List.length (df town_first) = List.length once
  /\ List.length (df time_first) = List.length (df town_first).
Proof.
  intros fresh town_first time_first once.
  assert (E1 : df town_first = once).
  { subst town_first once fresh. unfold filter_once.
    run_methods.
    apply filter_twice. }
  assert (E2 : df time_first = once).
  { subst time_first once fresh. unfold filter_once.
    run_methods.
    rewrite filter_twice. apply filter_ext_bool. intros r. apply andb_comm. }
  split; [apply filter_once_Keeps|].
  repeat split; try assumption; now rewrite ?E1, ?E2.
Qed.

(** ** No match, no rows; an aware bound, an error *)

Lemma select_masks (f g : Row -> bool) (rows : DataFrame) :
  Raising.select rows
    (Raising.mask_and (map (fun x => f x) rows) (map (fun x => g x) rows))
  = filter (fun r => f r && g r) rows.
Proof.
  induction rows as [|r rows IH]; [reflexivity|].
  unfold Raising.mask_and in *. simpl.
  destruct (f r && g r); now rewrite IH.
Qed.

(** With bounds that are absent or naive, [filter_by_time] returns what it
    returns on the naive datetimes. *)
Lemma filter_by_time_naive_bounds
      (start end_ : option Raising.datetime_tz) (self : ResaleFlats) :
  Raising.is_aware start = false ->
  Raising.is_aware end_ = false ->
  Raising.filter_by_time start end_ self
  = Returned (filter_by_time (Raising.strip start) (Raising.strip end_) self).
Proof.
  intros Hs He. unfold Raising.filter_by_time, filter_by_time.
  unfold Raising.series_ge, Raising.series_le.
  destruct start as [[s [zs|]]|]; try discriminate Hs;
    destruct end_ as [[e [ze|]]|]; try discriminate He; simpl;
    rewrite !map_map;
    rewrite (select_masks (fun r => pd.ge (date r) _)
                          (fun r => pd.le (date r) _));
    reflexivity.
Qed.

Lemma filter_by_time_aware_bound
      (start end_ : option Raising.datetime_tz) (self : ResaleFlats) :
  Raising.is_aware start = true \/ Raising.is_aware end_ = true ->
  Raising.filter_by_time start end_ self = Raised TypeError.
Proof.
  unfold Raising.filter_by_time, Raising.series_ge, Raising.series_le.
  intros [H | H].
  - destruct start as [[s [zs|]]|]; try discriminate H. reflexivity.
  - destruct end_ as [[e [ze|]]|]; try discriminate H.
    destruct start as [[s [zs|]]|]; reflexivity.
Qed.

(** C9, as stated, fails: with a [start] that carries a time zone
    [filter_by_time] raises [TypeError], on every working view. *)
Lemma filter_by_time_aware_start_raises :
  Raising.filter_by_time (Some utc_2020) None sample = Raised TypeError
  /\ Raising.filter_by_time (Some naive_2020) None sample
     = Returned (df sample, sample).
Proof. split; reflexivity. Qed.

(** C9, amended. [filter_by_town] and [filter_by_flat_type] with a list
    none of whose members occurs in the view return, and install, the
    empty view.  [filter_by_time] returns for every [start] and [end_]
    that are absent or naive, and then returns the empty view when no date
    of the view lies in the window; it raises [TypeError] exactly when a
    given bound is aware. *)
Theorem filters_raise_only_on_aware_bounds (self : ResaleFlats) :
  (forall towns,
      (forall r, In r (df self) -> ~ In (town r) towns) ->
      filter_by_town towns self = ([], set_df self []))
  /\ (forall flat_types,
         (forall r, In r (df self) -> ~ In (flat_type r) flat_types) ->
         filter_by_flat_type flat_types self = ([], set_df self []))
  /\ (forall start end_,
         Raising.is_aware start = false ->
         Raising.is_aware end_ = false ->
         (exists view,
             Raising.filter_by_time start end_ self
             = Returned (view, set_df self view))
         /\ ((forall r, In r (df self) ->
                        ~ in_range (lower (Raising.strip start))
                                   (upper (Raising.strip end_)) r) ->
             Raising.filter_by_time start end_ self
             = Returned ([], set_df self [])))
  /\ (forall start end_,
         Raising.filter_by_time start end_ self = Raised TypeError
         <-> Raising.is_aware start = true \/ Raising.is_aware end_ = true).
Proof.
  split; [|split; [|split]].
  - intros towns H. unfold filter_by_town.
    rewrite filter_nothing; [reflexivity|].
    intros r Hr. apply not_true_is_false. rewrite isin_In. now apply H.
  - intros flat_types H. unfold filter_by_flat_type.
    rewrite filter_nothing; [reflexivity|].
    intros r Hr. apply not_true_is_false. rewrite isin_In. now apply H.
  - intros start end_ Hs He.
    rewrite (filter_by_time_naive_bounds start end_ self Hs He). split.
    + eexists. reflexivity.
    + intros H. unfold filter_by_time.
      fold (lower (Raising.strip start)). fold (upper (Raising.strip end_)).
      rewrite filter_nothing; [reflexivity|].
      intros r Hr. apply not_true_is_false. rewrite in_range_spec.
      now apply H.
  - intros start end_. split.
    + intros Hraised.
      destruct (Raising.is_aware start) eqn:Hs; [now left|].
      destruct (Raising.is_aware end_) eqn:He; [now right|].
      rewrite (filter_by_time_naive_bounds start end_ self Hs He) in Hraised.
      discriminate Hraised.
    + apply filter_by_time_aware_bound.
Qed.

Lemma filters_raise_only_on_aware_bounds_witness :
  filter_by_town ["Atlantis"] sample = ([], set_df sample [])
  /\ Raising.filter_by_time None (Some naive_1999) sample
     = Returned ([], set_df sample []).
Proof.
  split.
  - apply (proj1 (filters_raise_only_on_aware_bounds sample) ["Atlantis"]).
    intros r Hr Hin. simpl in Hr, Hin.
    destruct Hin as [Hin | []].
    destruct Hr as [<- | [<- | [<- | []]]]; discriminate Hin.
  - apply (proj1 (proj2 (proj2 (filters_raise_only_on_aware_bounds sample)))
             None (Some naive_1999)); try reflexivity.
    intros r Hr [ts [Hdate Hrange]]. simpl in Hr.
    destruct Hr as [<- | [<- | [<- | []]]];
      injection Hdate as <-; vm_compute in Hrange;
      destruct Hrange as [_ Hrange]; apply Hrange; reflexivity.
Defined.

(** ** [show] *)

(** C10. [show(n)] displays [head(n)] of the working view and leaves the
    object as it is: the first [n] rows for [n >= 0], none for [n = 0],
    and for [n < 0] the view without its last [-n] rows (without all of
    them when it has fewer). *)
Theorem show_head (self : ResaleFlats) (n : Z) :
  snd (show n self) = self
  /\ (0 <= n -> fst (show n self) = firstn (Z.to_nat n) (df self))
  /\ fst (show 0 self) = []
  /\ (n < 0 ->
      exists last,
        df self = fst (show n self) ++ last
        /\ List.length last
           = Nat.min (Z.to_nat (- n)) (List.length (df self))).
Proof.
  split; [reflexivity|]. split; [|split; [reflexivity|]].
  - intros Hn. simpl. unfold pd.head.
    destruct (Z.leb_spec 0 n); [reflexivity | lia].
  - intros Hn. simpl. unfold pd.head.
    destruct (Z.leb_spec 0 n); [lia|].
    exists (skipn (Z.to_nat (Z.of_nat (List.length (df self)) + n)) (df self)).
    split; [symmetry; apply firstn_skipn|].
    rewrite length_skipn. lia.
Qed.

Lemma show_head_witness :
  fst (show 2 sample) = [bedok_2020; yishun_2021]
  /\ exists last,
       df sample = fst (show (-1) sample) ++ last
       /\ List.length last = 1%nat.
Proof.
  split.
  - apply (proj1 (proj2 (show_head sample 2))). lia.
  - apply (proj2 (proj2 (proj2 (show_head sample (-1))))). lia.
Defined.

(** ** What [fetch_data] builds, and when it fails *)

Lemma traverse_Forall2 {A B : Type} (f : A -> option B)
      (xs : list A) (ys : list B) :
  traverse f xs = Some ys <-> Forall2 (fun x y => f x = Some y) xs ys.
Proof.
  revert ys. induction xs as [|x xs IH]; intros ys; simpl.
  - split.
    + intros H. injection H as <-. constructor.
    + intros H. inversion H. reflexivity.
  - split.
    + destruct (f x) as [y|] eqn:Ey; [|discriminate].
      destruct (traverse f xs) as [ys0|]; [|discriminate].
      intros H. injection H as <-. constructor; [exact Ey | now apply IH].
    + intros H. inversion H as [|x0 y xs0 ys0 Hy Hrest]; subst.
      rewrite Hy. apply IH in Hrest. now rewrite Hrest.
Qed.

Lemma traverse_None {A B : Type} (f : A -> option B) (xs : list A) (x : A) :
  In x xs -> f x = None -> traverse f xs = None.
Proof.
  induction xs as [|x0 xs IH]; simpl; intros Hin Hx; [destruct Hin|].
  destruct Hin as [-> | Hin].
  - now rewrite Hx.
  - rewrite (IH Hin Hx). now destruct (f x0).
Qed.

Lemma Forall2_length_eq {A B : Type} (R : A -> B -> Prop)
      (xs : list A) (ys : list B) :
  Forall2 R xs ys -> List.length xs = List.length ys.
Proof. induction 1; simpl; congruence. Qed.

Section Fetched.

Variable fetch : string -> option (list RawRecord).
Variable to_numeric : string -> option float.
Variable to_datetime : string -> option pd.datetime64.

Lemma enrich_corresponds (raw : RawRecord) (r : Row) :
  enrich to_numeric to_datetime raw = Some r ->
  corresponds to_numeric to_datetime raw r.
Proof.
  unfold enrich, corresponds. intros H.
  destruct (to_numeric (raw_resale_price raw)) as [price|]; [|discriminate].
  destruct (to_numeric (raw_floor_area_sqm raw)) as [area|]; [|discriminate].
  destruct (to_datetime (raw_month raw)) as [d|]; [|discriminate].
  injection H as <-. simpl. repeat split; reflexivity.
Qed.

Lemma enrich_None (raw : RawRecord) :
  to_numeric (raw_resale_price raw) = None
  \/ to_numeric (raw_floor_area_sqm raw) = None
  \/ to_datetime (raw_month raw) = None ->
  enrich to_numeric to_datetime raw = None.
Proof.
  unfold enrich. intros [H | [H | H]]; rewrite H.
  - reflexivity.
  - now destruct (to_numeric (raw_resale_price raw)).
  - destruct (to_numeric (raw_resale_price raw)); [|reflexivity].
    now destruct (to_numeric (raw_floor_area_sqm raw)).
Qed.

Lemma fetch_data_eq :
  fetch_data fetch to_numeric to_datetime
  = match traverse (fun resource_id => fetch (request_url resource_id))
                   resource_ids with
    | Some dfs =>
        match List.concat dfs with
        | [] => None
        | (_ :: _) as records => traverse (enrich to_numeric to_datetime) records
        end
    | None => None
    end.
Proof. reflexivity. Qed.

Lemma init_None :
  fetch_data fetch to_numeric to_datetime = None ->
  __init__ fetch to_numeric to_datetime = None.
Proof. unfold __init__. now intros ->. Qed.

End Fetched.

(** X1. When [fetch_data] returns a table, each of the five partitions was
    fetched, and the table has one row per fetched record, in the order
    of the partitions and of the records within each, none merged or
    dropped: the text cells are the record's own and the numeric and date
    cells their parses. *)
Theorem fetch_data_rows_in_partition_order
        (fetch : string -> option (list RawRecord))
        (to_numeric : string -> option float)
        (to_datetime : string -> option pd.datetime64)
        (d : DataFrame) :
  fetch_data fetch to_numeric to_datetime = Some d ->
  exists dfs,
    Forall2 (fun resource_id records =>
               fetch (request_url resource_id) = Some records)
            resource_ids dfs
    /\ Forall2 (corresponds to_numeric to_datetime) (List.concat dfs) d
    /\ List.length d = List.length (List.concat dfs).
Proof.
  rewrite fetch_data_eq. intros H.
  destruct (traverse (fun resource_id => fetch (request_url resource_id))
                     resource_ids) as [dfs|] eqn:Efetch; [|discriminate].
  exists dfs. apply traverse_Forall2 in Efetch.
  split; [exact Efetch|].
  assert (Hrows : Forall2 (corresponds to_numeric to_datetime)
                          (List.concat dfs) d).
  { clear Efetch. destruct (List.concat dfs) as [|raw0 raws]; [discriminate|].
    apply traverse_Forall2 in H.
    induction H; constructor; auto using enrich_corresponds. }
  split; [exact Hrows|].
  symmetry. exact (Forall2_length_eq _ _ _ Hrows).
Qed.

Lemma fetch_data_rows_in_partition_order_witness :
  exists dfs,
    Forall2 (fun resource_id records =>
               sample_fetch (request_url resource_id) = Some records)
            resource_ids dfs
    /\ Forall2 (corresponds sample_to_numeric sample_to_datetime)
               (List.concat dfs) (original_data constructed)
    /\ List.length (original_data constructed)
       = List.length (List.concat dfs).
Proof.
  apply (fetch_data_rows_in_partition_order
           sample_fetch sample_to_numeric sample_to_datetime
           (original_data constructed)).
  reflexivity.
Defined.

(** X2. When the request for any one of the five partitions fails,
    [fetch_data] fails and no object is constructed: there is no partial
    table. *)
Theorem fetch_failure_fails_construction
        (fetch : string -> option (list RawRecord))
        (to_numeric : string -> option float)
        (to_datetime : string -> option pd.datetime64)
        (resource_id : string) :
  In resource_id resource_ids ->
  fetch (request_url resource_id) = None ->
  fetch_data fetch to_numeric to_datetime = None
  /\ __init__ fetch to_numeric to_datetime = None.
Proof.
  intros Hin Hfail.
  assert (H : fetch_data fetch to_numeric to_datetime = None).
  { rewrite fetch_data_eq.
    now rewrite (traverse_None
                   (fun resource_id => fetch (request_url resource_id))
                   resource_ids resource_id Hin Hfail). }
  split; [exact H | now apply init_None].
Qed.

Lemma fetch_failure_fails_construction_witness :
  fetch_data failing_fetch sample_to_numeric sample_to_datetime = None
  /\ __init__ failing_fetch sample_to_numeric sample_to_datetime = None.
Proof.
  apply (fetch_failure_fails_construction
           failing_fetch sample_to_numeric sample_to_datetime
           "8c00bf08-9124-479e-aeca-7cc411d884c4").
  - simpl. tauto.
  - reflexivity.
Defined.

(** X3. When all five partitions are fetched and one record of any of them
    has a price or floor area that is no number, or a month that is no
    date, [fetch_data] fails and no object is constructed: one bad cell
    discards the whole table. *)
Theorem parse_failure_fails_construction
        (fetch : string -> option (list RawRecord))
        (to_numeric : string -> option float)
        (to_datetime : string -> option pd.datetime64)
        (dfs : list (list RawRecord)) (raw : RawRecord) :
  Forall2 (fun resource_id records =>
             fetch (request_url resource_id) = Some records)
          resource_ids dfs ->
  In raw (List.concat dfs) ->
  to_numeric (raw_resale_price raw) = None
  \/ to_numeric (raw_floor_area_sqm raw) = None
  \/ to_datetime (raw_month raw) = None ->
  fetch_data fetch to_numeric to_datetime = None
  /\ __init__ fetch to_numeric to_datetime = None.
Proof.
  intros Hfetch Hin Hbad.
  assert (H : fetch_data fetch to_numeric to_datetime = None).
  { rewrite fetch_data_eq.
    apply traverse_Forall2 in Hfetch. rewrite Hfetch.
    destruct (List.concat dfs) as [|raw0 raws]; [reflexivity|].
    apply (traverse_None _ _ raw Hin). now apply enrich_None. }
  split; [exact H | now apply init_None].
Qed.

Lemma parse_failure_fails_construction_witness :
  fetch_data unpriced_fetch sample_to_numeric sample_to_datetime = None
  /\ __init__ unpriced_fetch sample_to_numeric sample_to_datetime = None.
Proof.
  apply (parse_failure_fails_construction
           unpriced_fetch sample_to_numeric sample_to_datetime
           [[raw_yishun]; [raw_yishun]; [raw_bedok; raw_unpriced];
            [raw_yishun]; [raw_yishun]]
           raw_unpriced).
  - repeat constructor.
  - simpl. tauto.
  - left. reflexivity.
Defined.

(** ** Sequences of filters *)

Lemma Keeps_all {A : Type} (rows : list A) : Keeps (fun _ => True) rows rows.
Proof. induction rows; constructor; auto. Qed.

Lemma Keeps_ext {A : Type} (P Q : A -> Prop) (rows kept : list A) :
  (forall x, P x <-> Q x) -> Keeps P rows kept -> Keeps Q rows kept.
Proof.
  intros HPQ H. induction H.
  - constructor.
  - apply Keeps_take; [now apply HPQ | assumption].
  - apply Keeps_drop; [rewrite <- HPQ; assumption | assumption].
Qed.

Lemma Keeps_compose {A : Type} (P Q : A -> Prop) (rows mid kept : list A) :
  Keeps P rows mid -> Keeps Q mid kept ->
  Keeps (fun x => P x /\ Q x) rows kept.
Proof.
  intros H. revert kept. induction H as [|x rows mid Hx H IH|x rows mid Hx H IH];
    intros kept HQ.
  - inversion HQ. constructor.
  - inversion HQ; subst.
    + apply Keeps_take; [tauto | now apply IH].
    + apply Keeps_drop; [tauto | now apply IH].
  - apply Keeps_drop; [tauto | now apply IH].
Qed.

Lemma Keeps_In {A : Type} (P : A -> Prop) (rows kept : list A) (x : A) :
  Keeps P rows kept -> In x kept -> In x rows /\ P x.
Proof.
  induction 1 as [|y rows kept Hy H IH|y rows kept Hy H IH]; simpl; intros Hin.
  - destruct Hin.
  - destruct Hin as [<- | Hin]; [tauto|]. destruct (IH Hin). tauto.
  - destruct (IH Hin). tauto.
Qed.

Lemma Keeps_Subseq {A : Type} (P : A -> Prop) (rows kept : list A) :
  Keeps P rows kept -> Subseq kept rows.
Proof. induction 1; constructor; assumption. Qed.

Lemma Subseq_refl {A : Type} (rows : list A) : Subseq rows rows.
Proof. induction rows; constructor; assumption. Qed.

Lemma Subseq_trans {A : Type} (l1 l2 l3 : list A) :
  Subseq l1 l2 -> Subseq l2 l3 -> Subseq l1 l3.
Proof.
  intros H12 H23. revert l1 H12.
  induction H23 as [|x l2 l3 H23 IH|x l2 l3 H23 IH]; intros l1 H12.
  - exact H12.
  - inversion H12; subst.
    + apply Subseq_take. now apply IH.
    + apply Subseq_skip. now apply IH.
  - apply Subseq_skip. now apply IH.
Qed.

Lemma Subseq_length {A : Type} (kept rows : list A) :
  Subseq kept rows -> (List.length kept <= List.length rows)%nat.
Proof. induction 1; simpl; lia. Qed.

Lemma state_eq (s1 s2 : ResaleFlats) :
  original_data s1 = original_data s2 -> df s1 = df s2 -> s1 = s2.
Proof. destruct s1, s2. simpl. now intros -> ->. Qed.

Lemma run_cons (c : call) (calls : list call) (self : ResaleFlats) :
  run (c :: calls) self = run calls (step self c).
Proof. reflexivity. Qed.

Lemma run_app (before after : list call) (self : ResaleFlats) :
  run (before ++ after) self = run after (run before self).
Proof. unfold run. apply fold_left_app. Qed.

(** One call other than [reset] keeps the rows it accepts. *)
Lemma step_Keeps (self : ResaleFlats) (c : call) :
  c <> Reset -> Keeps (accepts c) (df self) (df (step self c)).
Proof.
  intros Hc. destruct c; simpl; try apply Keeps_all.
  - contradiction.
  - apply filter_Keeps. intros r. apply isin_In.
  - apply filter_Keeps. intros r. apply isin_In.
  - apply filter_Keeps. intros r. apply in_range_spec.
Qed.

Lemma run_Keeps (calls : list call) (self : ResaleFlats) :
  ~ In Reset calls ->
  Keeps (fun r => Forall (fun c => accepts c r) calls)
        (df self) (df (run calls self)).
Proof.
  revert self. induction calls as [|c calls IH]; intros self Hno.
  - simpl. apply (Keeps_ext (fun _ => True)); [|apply Keeps_all].
    intros r. split; auto.
  - rewrite run_cons.
    apply (Keeps_ext (fun r => accepts c r
                               /\ Forall (fun c => accepts c r) calls)).
    + intros r. split.
      * intros [H1 H2]. now constructor.
      * intros H. inversion H. auto.
    + apply (Keeps_compose _ _ _ (df (step self c))).
      * apply step_Keeps. intros ->. apply Hno. now left.
      * apply IH. intros Hin. apply Hno. now right.
Qed.

(** X4. Filters accumulate: after any sequence of calls without [reset],
    the working view holds exactly the rows of the view it started from
    that every filter of the sequence accepts, in their order;
    [get_towns] and [show] in between change nothing. *)
Theorem filters_accumulate (calls : list call) (self : ResaleFlats) :
  ~ In Reset calls ->
  Keeps (fun r => Forall (fun c => accepts c r) calls)
        (df self) (df (run calls self)).
Proof. apply run_Keeps. Qed.

Lemma filters_accumulate_witness :
  Keeps (fun r => Forall (fun c => accepts c r)
                         [FilterByFlatType ["3 ROOM"; "4 ROOM"]; GetTowns;
                          FilterByTime (Some (datetime.ymd 2021 1 1)) None])
        (df sample)
        (df (run [FilterByFlatType ["3 ROOM"; "4 ROOM"]; GetTowns;
                  FilterByTime (Some (datetime.ymd 2021 1 1)) None]
                 sample)).
Proof.
  apply (filters_accumulate
           [FilterByFlatType ["3 ROOM"; "4 ROOM"]; GetTowns;
            FilterByTime (Some (datetime.ymd 2021 1 1)) None]
           sample).
  simpl. intros [H | [H | [H | []]]]; discriminate H.
Defined.

(** X5. The order of the calls of a sequence without [reset] does not
    matter: any rearrangement of the sequence leaves the object in the same
    state. *)
Theorem filter_order_irrelevant
        (calls calls' : list call) (self : ResaleFlats) :
  Permutation calls calls' ->
  ~ In Reset calls ->
  run calls self = run calls' self.
Proof.
  intros Hperm Hno.
  assert (Hno' : ~ In Reset calls').
  { intros Hin. apply Hno.
    apply (Permutation_in _ (Permutation_sym Hperm) Hin). }
  apply state_eq.
  - now rewrite !run_original_data.
  - apply (Keeps_unique (fun r => Forall (fun c => accepts c r) calls)
                        (df self)).
    + now apply run_Keeps.
    + apply (Keeps_ext (fun r => Forall (fun c => accepts c r) calls')).
      * intros r. split; apply Permutation_Forall;
          [now apply Permutation_sym | assumption].
      * now apply run_Keeps.
Qed.

Lemma filter_order_irrelevant_witness :
  run [FilterByTown ["Bedok"]; Show 5; FilterByFlatType ["3 ROOM"]] sample
  = run [FilterByFlatType ["3 ROOM"]; FilterByTown ["Bedok"]; Show 5] sample.
Proof.
  apply (filter_order_irrelevant
           [FilterByTown ["Bedok"]; Show 5; FilterByFlatType ["3 ROOM"]]
           [FilterByFlatType ["3 ROOM"]; FilterByTown ["Bedok"]; Show 5]
           sample).
  - apply Permutation_sym. apply (Permutation_cons_app [_; _] []).
    apply Permutation_refl.
  - simpl. intros [H | [H | [H | []]]]; discriminate H.
Defined.

(** X6. A second town filter cannot widen the view: after
    [filter_by_town(first)], [filter_by_town(second)] with no town in
    common leaves no rows, whatever the snapshot holds; with a [reset] in
    between it keeps exactly the snapshot's rows of the second list. *)
Theorem second_town_filter_needs_reset
        (self : ResaleFlats) (first second : list string) :
  (forall x, In x first -> ~ In x second) ->
  df (run [FilterByTown first; FilterByTown second] self) = []
  /\ Keeps (fun r => In (town r) second) (original_data self)
           (df (run [FilterByTown first; Reset; FilterByTown second] self)).
Proof.
  intros Hdisjoint. split.
  - unfold run. simpl. rewrite filter_twice. apply filter_nothing.
    intros r _. apply not_true_is_false.
    rewrite andb_true_iff, !isin_In. intros [H1 H2].
    exact (Hdisjoint _ H1 H2).
  - unfold run. simpl. apply filter_Keeps. intros r. apply isin_In.
Qed.

Lemma second_town_filter_needs_reset_witness :
  df (run [FilterByTown ["Bedok"]; FilterByTown ["Yishun"]] sample) = []
  /\ Keeps (fun r => In (town r) ["Yishun"]) (original_data sample)
           (df (run [FilterByTown ["Bedok"]; Reset; FilterByTown ["Yishun"]]
                    sample)).
Proof.
  apply (second_town_filter_needs_reset sample ["Bedok"] ["Yishun"]).
  intros x [<- | []] [H | []]. discriminate H.
Defined.

Lemma step_Subseq (self : ResaleFlats) (c : call) :
  Subseq (df self) (original_data self) ->
  Subseq (df (step self c)) (original_data self).
Proof.
  intros H. destruct c.
  - apply Subseq_refl.
  - exact H.
  - apply (Subseq_trans _ (df self)); [|exact H].
    apply (Keeps_Subseq (accepts (FilterByTown towns))).
    now apply step_Keeps.
  - apply (Subseq_trans _ (df self)); [|exact H].
    apply (Keeps_Subseq (accepts (FilterByFlatType flat_types))).
    now apply step_Keeps.
  - apply (Subseq_trans _ (df self)); [|exact H].
    apply (Keeps_Subseq (accepts (FilterByTime start end_))).
    now apply step_Keeps.
  - exact H.
Qed.

(** X7. Once the working view is a selection of the snapshot (an object
    just constructed has the snapshot itself), it stays one through every
    sequence of calls, [reset] included: its rows are rows of the snapshot
    in the snapshot's order, and never more than the snapshot has. *)
Theorem view_stays_within_snapshot (self : ResaleFlats) (calls : list call) :
  Subseq (df self) (original_data self) ->
  Subseq (df (run calls self)) (original_data self)
  /\ (List.length (df (run calls self))
      <= List.length (original_data self))%nat.
Proof.
  intros H.
  assert (Hrun : Subseq (df (run calls self)) (original_data self)).
  { revert self H. induction calls as [|c calls IH]; intros self H.
    - exact H.
    - rewrite run_cons. rewrite <- (step_original_data self c).
      apply IH. rewrite step_original_data. now apply step_Subseq. }
  split; [exact Hrun | now apply Subseq_length].
Qed.

Lemma view_stays_within_snapshot_witness :
  Subseq (df (run [FilterByTown ["Yishun"]; Reset;
                   FilterByTime None (Some (datetime.ymd 2020 12 31))]
                  constructed))
         (original_data constructed)
  /\ (List.length
        (df (run [FilterByTown ["Yishun"]; Reset;
                  FilterByTime None (Some (datetime.ymd 2020 12 31))]
                 constructed))
      <= List.length (original_data constructed))%nat.
Proof.
  apply (view_stays_within_snapshot constructed).
  apply Subseq_refl.
Defined.

(** X8. [reset] forgets what came before it: a sequence of calls with a
    [reset] in it leaves the object in the state that the [reset] and the
    calls after it alone would leave it in. *)
Theorem reset_forgets_history
        (before after : list call) (self : ResaleFlats) :
  run (before ++ Reset :: after) self = run (Reset :: after) self.
Proof.
  rewrite run_app, !run_cons. f_equal.
  apply state_eq; simpl; now rewrite run_original_data.
Qed.

(** X9. Repeating a call changes nothing more: for every call, filters
    included, making it twice in a row leaves the object in the state the
    first left it in. *)
Theorem call_twice_is_call_once (self : ResaleFlats) (c : call) :
  step (step self c) c = step self c.
Proof.
  destruct c; try reflexivity; apply state_eq; try reflexivity; simpl;
    (apply filter_everything; intros r Hr; apply filter_In in Hr; tauto).
Qed.

(** X10. A filter reads its list as a set: two lists of towns, or of flat
    types, with the same members give the same result and the same next
    state, whatever the order and the repetitions in them. *)
Theorem filter_list_is_a_set (self : ResaleFlats) (values values' : list string) :
  (forall x, In x values <-> In x values') ->
  filter_by_town values self = filter_by_town values' self
  /\ filter_by_flat_type values self = filter_by_flat_type values' self.
Proof.
  intros Hsame.
  assert (E : forall x, pd.isin values x = pd.isin values' x).
  { intros x. destruct (pd.isin values x) eqn:E1; symmetry.
    - apply isin_In. apply Hsame. now apply isin_In.
    - apply not_true_is_false. rewrite isin_In. intros H.
      apply Hsame in H. apply isin_In in H. congruence. }
  unfold filter_by_town, filter_by_flat_type. split.
  - rewrite (filter_ext_bool _ (fun r => pd.isin values' (town r)));
      [reflexivity | intros r; apply E].
  - rewrite (filter_ext_bool _ (fun r => pd.isin values' (flat_type r)));
      [reflexivity | intros r; apply E].
Qed.

Lemma filter_list_is_a_set_witness :
  filter_by_town ["Yishun"; "Bedok"; "Yishun"] sample
  = filter_by_town ["Bedok"; "Yishun"] sample
  /\ filter_by_flat_type ["Yishun"; "Bedok"; "Yishun"] sample
     = filter_by_flat_type ["Bedok"; "Yishun"] sample.
Proof.
  apply (filter_list_is_a_set sample ["Yishun"; "Bedok"; "Yishun"]
                              ["Bedok"; "Yishun"]).
  intros x. simpl. tauto.
Defined.

(** ** The towns of a narrowed view *)

Lemma unique_from_filter (p : string -> bool) (xs seen1 seen2 : list string) :
  (forall x, p x = true -> pd.isin seen1 x = pd.isin seen2 x) ->
  pd.unique_from seen1 (filter p xs) = filter p (pd.unique_from seen2 xs).
Proof.
  revert seen1 seen2.
  induction xs as [|x xs IH]; intros seen1 seen2 Hseen; simpl; [reflexivity|].
  destruct (p x) eqn:Ep; simpl.
  - rewrite (Hseen x Ep). destruct (pd.isin seen2 x).
    + now apply IH.
    + simpl. rewrite Ep. f_equal. apply IH.
      intros y Hy. simpl. now rewrite (Hseen y Hy).
  - destruct (pd.isin seen2 x).
    + now apply IH.
    + simpl. rewrite Ep. apply IH.
      intros y Hy. simpl.
      destruct (String.eqb_spec y x) as [-> | Hne]; [congruence|].
      now apply Hseen.
Qed.

Lemma map_filter_town (p : string -> bool) (rows : list Row) :
  map town (filter (fun r => p (town r)) rows) = filter p (map town rows).
Proof.
  induction rows as [|r rows IH]; simpl; [reflexivity|].
  destruct (p (town r)); simpl; now rewrite IH.
Qed.

(** X11. After [filter_by_town(towns)], [get_towns] returns what it
    returned before with the towns outside the list struck out, the others
    in the order they had. *)
Theorem get_towns_after_filter_by_town
        (self : ResaleFlats) (towns : list string) :
  fst (get_towns (snd (filter_by_town towns self)))
  = filter (pd.isin towns) (fst (get_towns self)).
Proof.
  run_methods. rewrite map_filter_town. unfold pd.unique.
  now apply unique_from_filter.
Qed.

(** X12. Without a [reset] the towns of the view never grow: after any
    sequence of calls that has no [reset], every town [get_towns] returns
    is one it returned before the sequence. *)
Theorem get_towns_never_grows (calls : list call) (self : ResaleFlats) :
  ~ In Reset calls ->
  incl (fst (get_towns (run calls self))) (fst (get_towns self)).
Proof.
  intros Hno x Hx. apply get_towns_In in Hx. destruct Hx as [r [Hr Ht]].
  apply get_towns_In. exists r. split; [|exact Ht].
  exact (proj1 (Keeps_In _ _ _ r (run_Keeps calls self Hno) Hr)).
Qed.

Lemma get_towns_never_grows_witness :
  incl (fst (get_towns
               (run [FilterByFlatType ["4 ROOM"]; Show 1;
                     FilterByTime None (Some (datetime.ymd 2021 12 31))]
                    sample)))
       (fst (get_towns sample)).
Proof.
  apply (get_towns_never_grows
           [FilterByFlatType ["4 ROOM"]; Show 1;
            FilterByTime None (Some (datetime.ymd 2021 12 31))]
           sample).
  simpl. intros [H | [H | [H | []]]]; discriminate H.
Defined.

(** X13. [get_towns] lists the towns in the order of their first row: on a
    view that starts with row [r] it returns the town of [r] followed by
    what it returns on the other rows once those of that town are left
    out. *)
Theorem get_towns_first_appearance
        (self : ResaleFlats) (r : Row) (rows : list Row) :
  fst (get_towns (set_df self (r :: rows)))
  = town r
    :: fst (get_towns
              (set_df self
                 (filter (fun r' => negb (String.eqb (town r') (town r)))
                         rows))).
Proof.
  run_methods. unfold pd.unique. simpl. f_equal.
  rewrite (map_filter_town (fun x => negb (String.eqb x (town r)))).
  rewrite (unique_from_filter _ _ [] [town r]).
  - symmetry. apply filter_everything. intros x Hx.
    apply unique_from_In in Hx. destruct Hx as [_ Hx].
    destruct (String.eqb_spec x (town r)) as [-> | Hne]; [|reflexivity].
    exfalso. apply Hx. now left.
  - intros x Hx. simpl. apply negb_true_iff in Hx. now rewrite Hx.
Qed.

(** ** Windows open on one side *)

Lemma not_before_spec (start : datetime.t) (r : Row) :
  pd.ge (date r) start && pd.le (date r) (upper None) = true
  <-> not_before start r.
Proof.
  rewrite in_range_spec. unfold in_range, not_before. split.
  - intros [ts [E H]]. exists ts. split; [exact E | lia].
  - intros [ts [E H]]. exists ts. split; [exact E|].
    pose proof (Timestamp_within_defaults ts). lia.
Qed.

Lemma not_after_spec (end_ : datetime.t) (r : Row) :
  pd.ge (date r) (lower None) && pd.le (date r) end_ = true
  <-> not_after end_ r.
Proof.
  rewrite in_range_spec. unfold in_range, not_after. split.
  - intros [ts [E H]]. exists ts. split; [exact E | lia].
  - intros [ts [E H]]. exists ts. split; [exact E|].
    pose proof (Timestamp_within_defaults ts). lia.
Qed.

(** X14. With only [start] given, [filter_by_time] keeps exactly the rows
    dated on or after [start], however late; with only [end_] given,
    exactly the rows dated on or before [end_], however early.  A row
    without a date is dropped either way. *)
Theorem filter_by_time_one_bound (self : ResaleFlats) (bound : datetime.t) :
  Keeps (not_before bound) (df self)
        (fst (filter_by_time (Some bound) None self))
  /\ Keeps (not_after bound) (df self)
           (fst (filter_by_time None (Some bound) self))
  /\ (forall r, In r (fst (filter_by_time (Some bound) None self))
                \/ In r (fst (filter_by_time None (Some bound) self)) ->
                dated r).
Proof.
  split; [|split].
  - run_methods. apply filter_Keeps. intros r. apply not_before_spec.
  - run_methods. apply filter_Keeps. intros r. apply not_after_spec.
  - intros r [Hr | Hr]; run_methods; apply filter_In in Hr;
      destruct Hr as [_ Hr]; apply in_range_spec in Hr;
      destruct Hr as [ts [E _]]; unfold dated; congruence.
Qed.

(** ** [show] out of range *)

(** X15. [show(n)] accepts every [n]: what it displays is always a prefix
    of the working view, the whole view once [n] reaches the row count and
    nothing once [n] is at or below minus the row count; the number of
    rows displayed is [min(n, count)] for [n >= 0] and
    [max(0, count + n)] for [n < 0]. *)
Theorem show_any_count (self : ResaleFlats) (n : Z) :
  (exists others, df self = fst (show n self) ++ others)
  /\ (Z.of_nat (List.length (df self)) <= n -> fst (show n self) = df self)
  /\ (n <= - Z.of_nat (List.length (df self)) -> fst (show n self) = [])
  /\ Z.of_nat (List.length (fst (show n self)))
     = (if 0 <=? n then Z.min n (Z.of_nat (List.length (df self)))
        else Z.max 0 (Z.of_nat (List.length (df self)) + n)).
Proof.
  run_methods. unfold pd.head.
  split; [|split; [|split]].
  - destruct (0 <=? n); eexists; symmetry; apply firstn_skipn.
  - intros H. destruct (Z.leb_spec 0 n).
    + apply firstn_all2. lia.
    + apply firstn_all2. lia.
  - intros H. destruct (Z.leb_spec 0 n).
    + replace (Z.to_nat n) with 0%nat by lia. reflexivity.
    + replace (Z.to_nat _) with 0%nat by lia. reflexivity.
  - destruct (Z.leb_spec 0 n); rewrite length_firstn; lia.
Qed.

Lemma show_any_count_witness :
  fst (show 10 sample) = df sample /\ fst (show (-7) sample) = [].
Proof.
  split.
  - apply (proj1 (proj2 (show_any_count sample 10))). simpl. lia.
  - apply (proj1 (proj2 (proj2 (show_any_count sample (-7))))). simpl. lia.
Defined.

(** ** Construction from an empty API *)

Lemma traverse_const {A B : Type} (f : A -> option B) (xs : list A) (y : B) :
  (forall x, In x xs -> f x = Some y) ->
  traverse f xs = Some (map (fun _ => y) xs).
Proof.
  induction xs as [|x xs IH]; simpl; intros H; [reflexivity|].
  rewrite (H x (or_introl eq_refl)), IH; [reflexivity|].
  intros x' Hx'. apply H. now right.
Qed.

Lemma concat_all_nil {A B : Type} (xs : list A) :
  List.concat (map (fun _ => @nil B) xs) = [].
Proof. induction xs; simpl; auto. Qed.

(** X16. When every one of the five partitions is fetched and holds no
    record, [fetch_data] fails (the empty frame has no [resale_price]
    column to coerce) and no object is constructed. *)
Theorem empty_api_fails_construction
        (fetch : string -> option (list RawRecord))
        (to_numeric : string -> option float)
        (to_datetime : string -> option pd.datetime64) :
  (forall resource_id,
      In resource_id resource_ids ->
      fetch (request_url resource_id) = Some []) ->
  fetch_data fetch to_numeric to_datetime = None
  /\ __init__ fetch to_numeric to_datetime = None.
Proof.
  intros Hempty.
  assert (H : fetch_data fetch to_numeric to_datetime = None).
  { rewrite fetch_data_eq.
    rewrite (traverse_const
               (fun resource_id => fetch (request_url resource_id))
               resource_ids [] Hempty).
    now rewrite concat_all_nil. }
  split; [exact H | now apply init_None].
Qed.

Lemma empty_api_fails_construction_witness :
  fetch_data empty_fetch sample_to_numeric sample_to_datetime = None
  /\ __init__ empty_fetch sample_to_numeric sample_to_datetime = None.
Proof.
  apply (empty_api_fails_construction
           empty_fetch sample_to_numeric sample_to_datetime).
  intros resource_id _. reflexivity.
Defined.

(** X17. A constructed object is never empty: its snapshot, and the
    working view it starts with, hold at least one row. *)
Theorem constructed_object_has_rows
        (fetch : string -> option (list RawRecord))
        (to_numeric : string -> option float)
        (to_datetime : string -> option pd.datetime64)
        (self : ResaleFlats) :
  __init__ fetch to_numeric to_datetime = Some self ->
  original_data self <> [] /\ df self <> [].
Proof.
  intros Hinit.
  destruct (init_state _ _ _ _ Hinit) as [Hfetch Hdf].
  assert (H : original_data self <> []).
  { rewrite fetch_data_eq in Hfetch.
    destruct (traverse _ resource_ids) as [dfs|]; [|discriminate].
    destruct (List.concat dfs) as [|raw raws]; [discriminate|].
    simpl in Hfetch.
    destruct (enrich to_numeric to_datetime raw); [|discriminate].
    destruct (traverse _ raws); [|discriminate].
    injection Hfetch as <-. discriminate. }
  split; [exact H | now rewrite Hdf].
Qed.

Lemma constructed_object_has_rows_witness :
  original_data constructed <> [] /\ df constructed <> [].
Proof.
  apply (constructed_object_has_rows
           sample_fetch sample_to_numeric sample_to_datetime constructed).
  reflexivity.
Defined.
